(** * smartmirror: the request handlers of the REST gateway

    A shallow embedding of [api/v1/endpoints/geolocator.py] and
    [api/v1/endpoints/weather.py].  The handlers are straight-line glue
    around two external services, so they are embedded as programs of a
    small free monad whose operations are the calls that leave the
    handler ([services.geolocator.getLocation], the three functions of
    [services.weather], and [print]).  Running a program against an
    environment that answers the calls yields the value the handler
    returns together with the ordered list of calls it made. *)

From Stdlib Require Import ZArith QArith String Ascii List.
From stdpp Require Import gmap strings list fin_maps.

Local Open Scope Z_scope.
Local Open Scope string_scope.

(** ** [str.replace] *)

(** Python's [s.replace(old, new)]: every non-overlapping occurrence of
    [old], scanning from the left, becomes [new].  [skip] counts the
    characters of a match that are still to be dropped. *)
Fixpoint replace_from (old new : string) (skip : nat) (s : string) : string :=
  match s with
  | EmptyString => EmptyString
  | String c rest =>
      match skip with
      | S n => replace_from old new n rest
      | O =>
          if String.prefix old s
          then new ++ replace_from old new (String.length old - 1) rest
          else String c (replace_from old new 0 rest)
      end
  end.

(** With an empty [old], Python puts [new] before every character and
    at the end. *)
Fixpoint interleave (new s : string) : string :=
  match s with
  | EmptyString => EmptyString
  | String c rest => String c (new ++ interleave new rest)
  end.

Definition replace (old new s : string) : string :=
  match old with
  | EmptyString => new ++ interleave new s
  | String _ _ => replace_from old new 0 s
  end.

Arguments replace : simpl never.

(** Character-wise reading of [replace " " "_"], used to state what the
    normalisation achieves. *)
Definition underscore_space (c : ascii) : ascii :=
  if Ascii.eqb c " "%char then "_"%char else c.

Fixpoint map_string (f : ascii -> ascii) (s : string) : string :=
  match s with
  | EmptyString => EmptyString
  | String c rest => String (f c) (map_string f rest)
  end.

Fixpoint has_space (s : string) : bool :=
  match s with
  | EmptyString => false
  | String c rest => Ascii.eqb c " "%char || has_space rest
  end.

(** Python's [x is None]. *)
Definition is_None {A : Type} (o : option A) : bool :=
  match o with
  | None => true
  | Some _ => false
  end.

Section Endpoints.

(** The types the handlers only pass along: coordinates (floats in the
    providers' answers), the second component of the tuples returned
    by the services, and one reading of the weather provider. *)
Context {coord svc_status reading : Type}.

(** ** Data *)

(** Modelled from the spec: [services/geolocator.py] is not among the
    sources; the location it returns is the record of the data model,
    read by the handlers through the keys ['latitude'], ['longitude'],
    ['region_code'] and ['city']. *)
Record Location : Type := {
  latitude : coord;
  longitude : coord;
  region_code : string;
  city : string
}.

(** Modelled from the spec: [services/weather.py] is not among the
    sources; a weather result is a single reading (current weather) or
    an ordered sequence of readings (forecasts). *)
Inductive WeatherResult : Type :=
| Current (r : reading)
| Forecast (entries : list reading).

(** The values stored in a response dictionary. *)
Inductive value : Type :=
| VInt (n : Z)
| VStr (s : string)
| VLocation (l : Location)
| VWeather (w : WeatherResult).

(** The constants of [api/v1/http_codes.py], which is not among the
    sources: the handlers are parameterised by them. *)
Record http_codes_module : Type := {
  _200 : value;
  _400 : value;
  _503 : value;
  EXT_ERR : value
}.

(** What [parse_args()] yields for the two parsers: every argument is
    optional, an absent one is [None]. *)
Record current_weather_args : Type := {
  arg_lat : option coord;
  arg_lon : option coord
}.

Record forecast_args : Type := {
  arg_state : option string;
  arg_city : option string
}.

(** A handler returns [response_dict, code]. *)
Definition response : Type := gmap string value * Z.

(** ** Calls that leave the handler *)

Inductive call : Type :=
| getLocation
| getCurrentWeather (lat lon : coord)
| getHourlyForecast (state city : string)
| getDailyForecast (state city : string)
| print (d : gmap string value).

(** The services return a pair [(result, status)] whose first
    component is [None] on failure. *)
Definition resp (c : call) : Type :=
  match c with
  | getLocation => option Location * svc_status
  | getCurrentWeather _ _ => option WeatherResult * svc_status
  | getHourlyForecast _ _ => option WeatherResult * svc_status
  | getDailyForecast _ _ => option WeatherResult * svc_status
  | print _ => unit
  end.

Inductive prog (R : Type) : Type :=
| Return (r : R)
| Call (c : call) (k : resp c -> prog R).

Arguments Return {R} r.
Arguments Call {R} c k.

Definition perform (c : call) : prog (resp c) := Call c Return.

Fixpoint bind {A B : Type} (f : A -> prog B) (p : prog A) : prog B :=
  match p with
  | Return a => f a
  | Call c k => Call c (fun r => bind f (k r))
  end.

#[local] Instance prog_ret : MRet prog := @Return.
#[local] Instance prog_bind : MBind prog := @bind.

(** An environment answers every call; [run] feeds its answers to the
    program and records the calls in the order they were made. *)
Definition env : Type := forall c : call, resp c.

Fixpoint run {R : Type} (e : env) (p : prog R) : R * list call :=
  match p with
  | Return r => (r, [])
  | Call c k => let '(r, t) := run e (k (e c)) in (r, c :: t)
  end.

Definition result {R : Type} (e : env) (p : prog R) : R := fst (run e p).
Definition trace {R : Type} (e : env) (p : prog R) : list call := snd (run e p).

Definition is_geolocation_call (c : call) : bool :=
  match c with getLocation => true | _ => false end.

Definition is_weather_call (c : call) : bool :=
  match c with
  | getCurrentWeather _ _ | getHourlyForecast _ _ | getDailyForecast _ _ => true
  | _ => false
  end.

(** ** The handlers *)

Variable http_codes : http_codes_module.

(** [Geolocator.get] *)
Definition Geolocator_get : prog response :=
  '(location, status) ← perform getLocation;
  match location with
  | None =>
      let response_dict : gmap string value :=
        {[ "status" := http_codes.(_503); "type" := http_codes.(EXT_ERR);
           "error_message" := VStr "Failed to make geolocation request" ]} in
      _ ← perform (print response_dict);
      Return (response_dict, 503)
  | Some location =>
      Return ({[ "status" := http_codes.(_200); "data" := VLocation location ]}, 200)
  end.

(** [CurrentWeather.get].  The part after the comment [#weather] is
    reached from both branches of the argument test; the branch that
    fails to locate returns before it. *)
Definition CurrentWeather_get (args : current_weather_args) : prog response :=
  let weather_part (lat lon : coord) : prog response :=
    '(weather, status) ← perform (getCurrentWeather lat lon);
    match weather with
    | None =>
        let response_dict : gmap string value :=
          {[ "status" := http_codes.(_503); "type" := http_codes.(EXT_ERR);
             "error_message" := VStr "Failed to make weather request" ]} in
        _ ← perform (print response_dict);
        Return (response_dict, 503)
    | Some weather =>
        Return ({[ "status" := http_codes.(_200); "data" := VWeather weather ]}, 200)
    end in
  match args.(arg_lat), args.(arg_lon) with
  | Some lat, Some lon =>
      (* lat and lon were provided *)
      weather_part lat lon
  | _, _ =>
      (* [lat is None or lon is None]: determine location *)
      '(location, status) ← perform getLocation;
      match location with
      | None =>
          let response_dict : gmap string value :=
            {[ "status" := http_codes.(_503); "type" := http_codes.(EXT_ERR);
               "error_message" := VStr "Failed to make geolocation request" ]} in
          _ ← perform (print response_dict);
          Return (response_dict, 503)
      | Some location =>
          weather_part location.(latitude) location.(longitude)
      end
  end.

(** [HourlyForecast.get] *)
Definition HourlyForecast_get (args : forecast_args) : prog response :=
  let weather_part (state city : string) : prog response :=
    '(weather, status) ← perform (getHourlyForecast state city);
    match weather with
    | None =>
        let response_dict : gmap string value :=
          {[ "status" := http_codes.(_503); "type" := http_codes.(EXT_ERR);
             "error_message" := VStr "Failed to make hourly forecast request" ]} in
        _ ← perform (print response_dict);
        Return (response_dict, 503)
    | Some weather =>
        Return ({[ "status" := http_codes.(_200); "data" := VWeather weather ]}, 200)
    end in
  match args.(arg_state), args.(arg_city) with
  | Some state, Some city =>
      let city := replace " " "_" city in
      weather_part state city
  | _, _ =>
      '(location, status) ← perform getLocation;
      match location with
      | None =>
          let response_dict : gmap string value :=
            {[ "status" := http_codes.(_503); "type" := http_codes.(EXT_ERR);
               "error_message" := VStr "Failed to make geolocation request" ]} in
          _ ← perform (print response_dict);
          Return (response_dict, 503)
      | Some location =>
          weather_part location.(region_code) location.(city)
      end
  end.

(** [DailyForecast.get] *)
Definition DailyForecast_get (args : forecast_args) : prog response :=
  let weather_part (state city : string) : prog response :=
    '(weather, status) ← perform (getDailyForecast state city);
    match weather with
    | None =>
        let response_dict : gmap string value :=
          {[ "status" := http_codes.(_503); "type" := http_codes.(EXT_ERR);
             "error_message" := VStr "Failed to make daily forecast request" ]} in
        _ ← perform (print response_dict);
        Return (response_dict, 503)
    | Some weather =>
        Return ({[ "status" := http_codes.(_200); "data" := VWeather weather ]}, 200)
    end in
  match args.(arg_state), args.(arg_city) with
  | Some state, Some city =>
      let city := replace " " "_" city in
      weather_part state city
  | _, _ =>
      '(location, status) ← perform getLocation;
      match location with
      | None =>
          let response_dict : gmap string value :=
            {[ "status" := http_codes.(_503); "type" := http_codes.(EXT_ERR);
               "error_message" := VStr "Failed to make geolocation request" ]} in
          _ ← perform (print response_dict);
          Return (response_dict, 503)
      | Some location =>
          weather_part location.(region_code) location.(city)
      end
  end.

(** ** Routing *)

(** The four routes: [/geolocator/], [/weather/current],
    [/weather/forecast/hourly] and [/weather/forecast/daily], each
    with the arguments its parser extracted. *)
Inductive request : Type :=
| GET_geolocator
| GET_weather_current (args : current_weather_args)
| GET_weather_forecast_hourly (args : forecast_args)
| GET_weather_forecast_daily (args : forecast_args).

Definition handle (req : request) : prog response :=
  match req with
  | GET_geolocator => Geolocator_get
  | GET_weather_current args => CurrentWeather_get args
  | GET_weather_forecast_hourly args => HourlyForecast_get args
  | GET_weather_forecast_daily args => DailyForecast_get args
  end.

(** ** Vocabulary of the properties *)

(** The argument test of the weather handlers, [a is None or b is
    None]: the location has to be determined. *)
Definition location_missing (req : request) : bool :=
  match req with
  | GET_geolocator => false
  | GET_weather_current args =>
      is_None args.(arg_lat) || is_None args.(arg_lon)
  | GET_weather_forecast_hourly args
  | GET_weather_forecast_daily args =>
      is_None args.(arg_state) || is_None args.(arg_city)
  end.

(** Exactly one argument of the pair was supplied. *)
Definition partial_location (req : request) : bool :=
  match req with
  | GET_geolocator => false
  | GET_weather_current args =>
      xorb (is_None args.(arg_lat)) (is_None args.(arg_lon))
  | GET_weather_forecast_hourly args
  | GET_weather_forecast_daily args =>
      xorb (is_None args.(arg_state)) (is_None args.(arg_city))
  end.

(** The same route with both arguments absent. *)
Definition without_location (req : request) : request :=
  match req with
  | GET_geolocator => GET_geolocator
  | GET_weather_current _ =>
      GET_weather_current {| arg_lat := None; arg_lon := None |}
  | GET_weather_forecast_hourly _ =>
      GET_weather_forecast_hourly {| arg_state := None; arg_city := None |}
  | GET_weather_forecast_daily _ =>
      GET_weather_forecast_daily {| arg_state := None; arg_city := None |}
  end.

(** The first component of a service's answer, the only part the
    claims call its outcome. *)
Definition outcome (c : call) : Type :=
  match c with
  | getLocation => option Location
  | getCurrentWeather _ _ => option WeatherResult
  | getHourlyForecast _ _ => option WeatherResult
  | getDailyForecast _ _ => option WeatherResult
  | print _ => unit
  end.

Definition first_component (c : call) : resp c -> outcome c :=
  match c as c' return resp c' -> outcome c' with
  | getLocation => fst
  | getCurrentWeather _ _ => fst
  | getHourlyForecast _ _ => fst
  | getDailyForecast _ _ => fst
  | print _ => fun u => u
  end.

(** The service answered call [c] with [None] as its result. *)
Definition returned_None (e : env) (c : call) : bool :=
  match c as c' return resp c' -> bool with
  | getLocation => fun r => is_None (fst r)
  | getCurrentWeather _ _ => fun r => is_None (fst r)
  | getHourlyForecast _ _ => fun r => is_None (fst r)
  | getDailyForecast _ _ => fun r => is_None (fst r)
  | print _ => fun _ => false
  end (e c).

(** The message each weather route reports when its weather call
    fails. *)
Definition weather_failure_message (req : request) : string :=
  match req with
  | GET_geolocator => ""
  | GET_weather_current _ => "Failed to make weather request"
  | GET_weather_forecast_hourly _ => "Failed to make hourly forecast request"
  | GET_weather_forecast_daily _ => "Failed to make daily forecast request"
  end.

(** The two shapes of a returned pair [response_dict, code]. *)
Definition success_shape (r : response) : Prop :=
  r.2 = 200 /\ r.1 !! "status" = Some http_codes.(_200) /\
  is_Some (r.1 !! "data") /\
  r.1 !! "type" = None /\ r.1 !! "error_message" = None.

Definition failure_shape (r : response) : Prop :=
  r.2 = 503 /\ r.1 !! "status" = Some http_codes.(_503) /\
  r.1 !! "data" = None /\
  r.1 !! "type" = Some http_codes.(EXT_ERR) /\
  is_Some (r.1 !! "error_message").

(** The weather client's contract on the forecasts. *)
Definition honours_forecast_contract (e : env) : Prop :=
  (forall state city w s,
      e (getHourlyForecast state city) = (Some w, s) ->
      exists entries, w = Forecast entries /\ length entries = 36%nat) /\
  (forall state city w s,
      e (getDailyForecast state city) = (Some w, s) ->
      exists entries, w = Forecast entries /\ length entries = 10%nat).

(** The calls to [print]. *)
Definition is_print_call (c : call) : bool :=
  match c with print _ => true | _ => false end.

(** What a service's answer to call [c] contributes as the [data] of a
    response: its result, when it has one. *)
Definition payload (e : env) (c : call) : option value :=
  match c as c' return resp c' -> option value with
  | getLocation => fun r => VLocation <$> fst r
  | getCurrentWeather _ _ => fun r => VWeather <$> fst r
  | getHourlyForecast _ _ => fun r => VWeather <$> fst r
  | getDailyForecast _ _ => fun r => VWeather <$> fst r
  | print _ => fun _ => None
  end (e c).

(** The service call whose result a route returns as [data]:
    [getLocation] for [/geolocator/], and for each weather route the
    function of [services.weather] it calls. *)
Definition serves_route (req : request) (c : call) : bool :=
  match req, c with
  | GET_geolocator, getLocation => true
  | GET_weather_current _, getCurrentWeather _ _ => true
  | GET_weather_forecast_hourly _, getHourlyForecast _ _ => true
  | GET_weather_forecast_daily _, getDailyForecast _ _ => true
  | _, _ => false
  end.

End Endpoints.

Arguments Return {coord svc_status reading R} r.
Arguments Call {coord svc_status reading R} c k.

(** ** A concrete deployment

    The section's types at rationals for the coordinates, the HTTP
    status of the provider for the services' second component, and
    strings for the readings. *)

(** Modelled from the spec: [api/v1/http_codes.py] is not among the
    sources; the envelopes of the spec carry the integer of the HTTP
    status under [status] and the error kind [EXT_ERR] under [type]. *)
Definition http_codes_spec {coord reading : Type} : @http_codes_module coord reading :=
  {| _200 := VInt 200; _400 := VInt 400; _503 := VInt 503;
     EXT_ERR := VStr "EXT_ERR" |}.


(** The location of the spec's scenario. *)
Definition los_angeles : @Location Q :=
  {| latitude := (3417 # 100)%Q; longitude := (- 11896 # 100)%Q;
     region_code := "CA"; city := "Los Angeles" |}.

(** Providers that answer every call with the given results and
    status. *)
Definition providers (status : Z) (location : option (@Location Q))
    (current hourly daily : option (@WeatherResult string))
  : @env Q Z string :=
  fun c =>
    match c with
    | getLocation => (location, status)
    | getCurrentWeather _ _ => (current, status)
    | getHourlyForecast _ _ => (hourly, status)
    | getDailyForecast _ _ => (daily, status)
    | print _ => tt
    end.

Definition all_up (status : Z) : @env Q Z string :=
  providers status (Some los_angeles) (Some (Current "clear sky"))
    (Some (Forecast (replicate 36 "clear sky")))
    (Some (Forecast (replicate 10 "clear sky"))).

Definition geolocation_down : @env Q Z string :=
  providers 500 None (Some (Current "clear sky"))
    (Some (Forecast (replicate 36 "clear sky")))
    (Some (Forecast (replicate 10 "clear sky"))).

Definition weather_down : @env Q Z string :=
  providers 500 (Some los_angeles) None None None.

Definition no_forecast_args : forecast_args :=
  {| arg_state := None; arg_city := None |}.

Section Properties.

Context {coord svc_status reading : Type}.
Variable http_codes : @http_codes_module coord reading.

#[local] Existing Instance prog_ret.
#[local] Existing Instance prog_bind.

(** Inside this section every type is taken at the section's
    parameters. *)
Local Abbreviation env := (@env coord svc_status reading).
Local Abbreviation call := (@call coord reading).
Local Abbreviation value := (@value coord reading).
Local Abbreviation response := (@response coord reading).
Local Abbreviation request := (@request coord).
Local Abbreviation current_weather_args := (@current_weather_args coord).

(** ** Running programs *)

Lemma run_Return {R : Type} (e : env) (r : R) : run e (Return r) = (r, []).
Proof. reflexivity. Qed.

Lemma run_perform_bind {R : Type} (e : env) (c : call) (f : resp c -> prog R) :
  run e (perform c ≫= f) = ((run e (f (e c))).1, c :: (run e (f (e c))).2).
Proof. simpl. destruct (run e (f (e c))); reflexivity. Qed.

Lemma run_bind {A B : Type} (e : env) (p : prog A) (f : A -> prog B) :
  run e (p ≫= f) =
  ((run e (f (run e p).1)).1, ((run e p).2 ++ (run e (f (run e p).1)).2)%list).
Proof.
  unfold mbind, prog_bind.
  induction p as [a | c k IH]; simpl.
  - destruct (run e (f a)); reflexivity.
  - rewrite (IH (e c)).
    destruct (run e (k (e c))) as [a t]; reflexivity.
Qed.

(** Case analysis on the answer of a service. *)
Ltac answer e c :=
  let r := fresh "r" in
  let s := fresh "s" in
  let E := fresh "E" in
  destruct (e c) as [[r|] s] eqn:E; simpl in *.

Ltac answer_location e := answer e (@getLocation coord reading).

Ltac answer_weather e :=
  match goal with
  | |- context [ e (getCurrentWeather ?x ?y) ] =>
      answer e (@getCurrentWeather coord reading x y)
  | |- context [ e (getHourlyForecast ?x ?y) ] =>
      answer e (@getHourlyForecast coord reading x y)
  | |- context [ e (getDailyForecast ?x ?y) ] =>
      answer e (@getDailyForecast coord reading x y)
  end.

(** A hypothesis about the answer to a call contradicts the recorded
    answer. *)
Ltac clash e :=
  match goal with
  | E : e ?c = _, H : context [ e ?c ] |- _ => rewrite E in H; discriminate
  end.

(** Case analysis on the answers of two environments that agree on
    first components. *)
Ltac same_answer e1 e2 Hsame :=
  match goal with
  | |- context [ e1 ?c ] =>
      let H := fresh "H" in
      let r := fresh "r" in
      let r' := fresh "r" in
      pose proof (Hsame c) as H; cbn [first_component] in H;
      destruct (e1 c) as [r ?], (e2 c) as [r' ?];
      cbn [fst] in H; subst r'; destruct r; simpl
  end.

Ltac split_args args :=
  let a := fresh "a" in
  let b := fresh "b" in
  destruct args as [[a|] [b|]]; simpl in *.

Ltac answer_location_if_called e :=
  match goal with
  | |- context [ e getLocation ] => answer_location e
  end.

(** Case analysis on the route, the arguments and the answers of the
    services, down to the runs a handler can have. *)
Ltac run_cases e req :=
  let args := fresh "args" in
  destruct req as [ | args | args | args ]; simpl in *;
  [ | split_args args .. ];
  try answer_location_if_called e; try answer_weather e.

(** Rewrite with the recorded answer to a call. *)
Ltac use_answer e :=
  match goal with
  | E : e ?c = _ |- context [ e ?c ] => rewrite E
  end.

(** Walk down a trace to the call that was answered with [None]. *)
Ltac find_failed e :=
  first [ apply Exists_cons_hd; unfold returned_None; use_answer e; reflexivity
        | apply Exists_cons_tl; find_failed e ].

(** The call that was answered with [None]. *)
Ltac failed_call e :=
  match goal with
  | E : e ?c = (None, _) |- _ => exists c
  end.

(** ** [replace " " "_"] *)

Lemma replace_space_map (s : string) :
  replace " " "_" s = map_string underscore_space s.
Proof.
  unfold replace.
  induction s as [ | c s IH ]; [ reflexivity | ].
  cbn [replace_from map_string String.prefix String.length Nat.sub].
  unfold underscore_space at 1.
  destruct (ascii_dec " " c) as [ <- | Hne ].
  - replace (String.prefix "" s) with true by (destruct s; reflexivity).
    rewrite IH. reflexivity.
  - destruct (Ascii.eqb_spec c " ") as [ -> | _ ]; [ contradiction | ].
    rewrite IH. reflexivity.
Qed.

Lemma map_underscore_no_space (s : string) :
  has_space (map_string underscore_space s) = false.
Proof.
  induction s as [ | c s IH ]; [ reflexivity | ].
  cbn [map_string has_space]. rewrite IH, orb_false_r.
  unfold underscore_space.
  destruct (Ascii.eqb_spec c " ") as [ -> | Hne ]; [ reflexivity | ].
  destruct (Ascii.eqb_spec c " "); [ contradiction | reflexivity ].
Qed.

Lemma replace_space_no_space (s : string) :
  has_space (replace " " "_" s) = false.
Proof. rewrite replace_space_map. apply map_underscore_no_space. Qed.

Lemma replace_space_id (s : string) :
  has_space s = false -> replace " " "_" s = s.
Proof.
  rewrite replace_space_map.
  induction s as [ | c s IH ]; [ reflexivity | ].
  cbn [map_string has_space]. intros [Hc Hs]%orb_false_iff.
  rewrite (IH Hs). unfold underscore_space. rewrite Hc. reflexivity.
Qed.

(** ** The city forwarded to the weather client *)

(** A city supplied by the caller reaches the weather client with its
    spaces replaced. *)
Lemma supplied_city_is_normalised (e : env) (state city : string) :
  let args := {| arg_state := Some state; arg_city := Some city |} in
  trace e (handle http_codes (GET_weather_forecast_hourly args)) !! 0%nat
    = Some (getHourlyForecast state (replace " " "_" city))
  /\ trace e (handle http_codes (GET_weather_forecast_daily args)) !! 0%nat
    = Some (getDailyForecast state (replace " " "_" city)).
Proof.
  unfold trace; simpl. split; answer_weather e; reflexivity.
Qed.

(** A city taken from the resolved location reaches the weather client
    as the geolocation client gave it. *)
Lemma resolved_city_is_forwarded (e : env) (l : Location) :
  fst (e getLocation) = Some l ->
  trace e (handle http_codes (GET_weather_forecast_hourly no_forecast_args)) !! 1%nat
    = Some (getHourlyForecast l.(region_code) l.(city))
  /\ trace e (handle http_codes (GET_weather_forecast_daily no_forecast_args)) !! 1%nat
    = Some (getDailyForecast l.(region_code) l.(city)).
Proof.
  unfold trace; simpl. intros Hl.
  answer_location e; try discriminate.
  injection Hl as ->.
  split; answer_weather e; reflexivity.
Qed.

(** ** The fallback chain *)

(** C2: on a weather route that has to determine the location, a
    failing geolocation call ends the request: the handler returns the
    503 dictionary with the geolocation message and the trace holds no
    call to the weather client. *)
Theorem geolocation_failure_short_circuits (e : env) (req : request) :
  location_missing req = true ->
  fst (e getLocation) = None ->
  result e (handle http_codes req) =
    ({[ "status" := http_codes.(_503); "type" := http_codes.(EXT_ERR);
        "error_message" := VStr "Failed to make geolocation request" ]}, 503)
  /\ Forall (fun c => is_weather_call c = false) (trace e (handle http_codes req)).
Proof.
  intros Hmiss Hgeo. unfold result, trace.
  destruct req as [ | args | args | args ]; simpl in Hmiss; try discriminate;
    split_args args; try discriminate;
    answer_location e; try discriminate;
    (split; [ reflexivity | repeat constructor ]).
Qed.

(** C4: with both [lat] and [lon] supplied, [/weather/current] never
    calls the geolocation client, and the one call it makes to the
    weather client is [getCurrentWeather] on the supplied values. *)
Theorem supplied_coordinates_skip_geolocation (e : env) (lat lon : coord) :
  let t := trace e (handle http_codes (GET_weather_current
                              {| arg_lat := Some lat; arg_lon := Some lon |})) in
  filter (fun c => is_geolocation_call c = true) t = []
  /\ filter (fun c => is_weather_call c = true) t = [getCurrentWeather lat lon].
Proof.
  unfold trace; simpl.
  answer_weather e; split; reflexivity.
Qed.

(** ** The response envelope *)

(** Every returned pair has one of the two shapes. *)
Lemma envelope_shapes (e : env) (req : request) :
  success_shape http_codes (result e (handle http_codes req)) \/
  failure_shape http_codes (result e (handle http_codes req)).
Proof.
  assert (Hok : forall w : value,
             success_shape http_codes ({[ "status" := http_codes.(_200); "data" := w ]}, 200)).
  { intros w. repeat split; simpl; try reflexivity; eexists; reflexivity. }
  assert (Hko : forall x : value,
             failure_shape http_codes
               ({[ "status" := http_codes.(_503); "type" := http_codes.(EXT_ERR);
                   "error_message" := x ]}, 503)).
  { intros x. repeat split; simpl; try reflexivity; eexists; reflexivity. }
  unfold result.
  destruct req as [ | args | args | args ]; simpl.
  - answer_location e; [ left | right ]; eauto.
  - split_args args.
    2-4: answer_location e.
    all: try (right; solve [ eauto ]).
    all: answer_weather e; [ left | right ]; eauto.
  - split_args args.
    2-4: answer_location e.
    all: try (right; solve [ eauto ]).
    all: answer_weather e; [ left | right ]; eauto.
  - split_args args.
    2-4: answer_location e.
    all: try (right; solve [ eauto ]).
    all: answer_weather e; [ left | right ]; eauto.
Qed.

Lemma shapes_exclusive (r : response) :
  success_shape http_codes r -> failure_shape http_codes r -> False.
Proof. intros [H200 _] [H503 _]. rewrite H200 in H503. discriminate. Qed.

(** C3: the pair a handler returns has one of two shapes, and never a
    mixture: code 200 with a [data] entry and no error entries, or code
    503 with the error entries and no [data] entry. *)
Theorem envelope_success_or_failure (e : env) (req : request) :
  let r := result e (handle http_codes req) in
  (success_shape http_codes r /\ ~ failure_shape http_codes r) \/
  (failure_shape http_codes r /\ ~ success_shape http_codes r).
Proof.
  cbv zeta.
  destruct (envelope_shapes e req) as [H | H]; [ left | right ];
    (split; [ exact H | ]); intros H'; eapply shapes_exclusive; eauto.
Qed.

(** C8: the code a handler returns is 200 or 503, whatever the
    arguments and the answers of the services; in particular it is
    never the documented 400. *)
Theorem code_is_200_or_503 (e : env) (req : request) :
  let code := (result e (handle http_codes req)).2 in
  (code = 200 \/ code = 503) /\ code <> 400.
Proof.
  cbv zeta. unfold result.
  destruct req as [ | args | args | args ]; simpl.
  - answer_location e; split; auto; discriminate.
  - split_args args.
    2-4: answer_location e.
    all: try (split; [ auto | discriminate ]).
    all: answer_weather e; split; auto; discriminate.
  - split_args args.
    2-4: answer_location e.
    all: try (split; [ auto | discriminate ]).
    all: answer_weather e; split; auto; discriminate.
  - split_args args.
    2-4: answer_location e.
    all: try (split; [ auto | discriminate ]).
    all: answer_weather e; split; auto; discriminate.
Qed.


(** Conversely, a [status] entry that is the code on every request
    forces the two constants to be these integers: [s] and [l] only
    serve to build one failing and one succeeding answer. *)
Lemma mirroring_forces_integer_constants (s : svc_status) (l : @Location coord) :
  (forall (e : env) (req : request),
      (result e (handle http_codes req)).1 !! "status"
      = Some (VInt (result e (handle http_codes req)).2)) ->
  http_codes.(_200) = VInt 200 /\ http_codes.(_503) = VInt 503.
Proof.
  intros Hmirror. split.
  - specialize (Hmirror
      (fun c => match c as c' return resp c' with
                | getLocation => (Some l, s)
                | getCurrentWeather _ _ => (None, s)
                | getHourlyForecast _ _ => (None, s)
                | getDailyForecast _ _ => (None, s)
                | print _ => tt
                end) GET_geolocator).
    unfold result in Hmirror; simpl in Hmirror.
    rewrite lookup_insert_eq in Hmirror. congruence.
  - specialize (Hmirror
      (fun c => match c as c' return resp c' with
                | getLocation => (None, s)
                | getCurrentWeather _ _ => (None, s)
                | getHourlyForecast _ _ => (None, s)
                | getDailyForecast _ _ => (None, s)
                | print _ => tt
                end) GET_geolocator).
    unfold result in Hmirror; simpl in Hmirror.
    rewrite lookup_insert_eq in Hmirror. congruence.
Qed.


(** ** Partial arguments *)

(** C5: a request that supplies exactly one argument of the pair runs
    exactly as the request that supplies none, whatever the supplied
    value is: same returned pair and same calls.  Its first call is
    the one geolocation call of the request, so it comes before any
    call to the weather client. *)
Theorem partial_arguments_as_absent (e : env) (req : request) :
  partial_location req = true ->
  run e (handle http_codes req) = run e (handle http_codes (without_location req))
  /\ exists rest,
       trace e (handle http_codes req) = getLocation :: rest /\
       Forall (fun c => is_geolocation_call c = false) rest.
Proof.
  intros Hpart. unfold trace.
  destruct req as [ | args | args | args ]; simpl in Hpart; try discriminate;
    split_args args; try discriminate;
    (split; [ reflexivity | ]);
    answer_location e;
    try (eexists; split; [ reflexivity | repeat constructor ]);
    answer_weather e; eexists; (split; [ reflexivity | repeat constructor ]).
Qed.

(** ** Failures of the weather client *)

Lemma current_weather_failure (e : env) (args : current_weather_args) (c : call) :
  In c (trace e (CurrentWeather_get http_codes args)) ->
  is_weather_call c = true ->
  returned_None e c = true ->
  result e (CurrentWeather_get http_codes args) =
    ({[ "status" := http_codes.(_503); "type" := http_codes.(EXT_ERR);
        "error_message" := VStr "Failed to make weather request" ]}, 503).
Proof.
  unfold trace, result, returned_None. intros Hin Hw Hnone.
  split_args args.
  2-4: answer_location e.
  all: try answer_weather e.
  all: simpl in Hin; intuition subst; try discriminate.
  all: try reflexivity.
  all: clash e.
Qed.

Lemma hourly_forecast_failure (e : env) (args : forecast_args) (c : call) :
  In c (trace e (HourlyForecast_get http_codes args)) ->
  is_weather_call c = true ->
  returned_None e c = true ->
  result e (HourlyForecast_get http_codes args) =
    ({[ "status" := http_codes.(_503); "type" := http_codes.(EXT_ERR);
        "error_message" := VStr "Failed to make hourly forecast request" ]}, 503).
Proof.
  unfold trace, result, returned_None. intros Hin Hw Hnone.
  split_args args.
  2-4: answer_location e.
  all: try answer_weather e.
  all: simpl in Hin; intuition subst; try discriminate.
  all: try reflexivity.
  all: clash e.
Qed.

Lemma daily_forecast_failure (e : env) (args : forecast_args) (c : call) :
  In c (trace e (DailyForecast_get http_codes args)) ->
  is_weather_call c = true ->
  returned_None e c = true ->
  result e (DailyForecast_get http_codes args) =
    ({[ "status" := http_codes.(_503); "type" := http_codes.(EXT_ERR);
        "error_message" := VStr "Failed to make daily forecast request" ]}, 503).
Proof.
  unfold trace, result, returned_None. intros Hin Hw Hnone.
  split_args args.
  2-4: answer_location e.
  all: try answer_weather e.
  all: simpl in Hin; intuition subst; try discriminate.
  all: try reflexivity.
  all: clash e.
Qed.

(** C7: when the call a request makes to the weather client is
    answered with [None], the handler returns code 503 and the
    dictionary with [_503], [EXT_ERR] and the message of its route. *)
Theorem weather_failure_envelope (e : env) (req : request) (c : call) :
  In c (trace e (handle http_codes req)) ->
  is_weather_call c = true ->
  returned_None e c = true ->
  result e (handle http_codes req) =
    ({[ "status" := http_codes.(_503); "type" := http_codes.(EXT_ERR);
        "error_message" := VStr (weather_failure_message req) ]}, 503).
Proof.
  destruct req as [ | args | args | args ]; simpl handle; simpl weather_failure_message.
  - unfold trace; simpl. intros Hin Hw _.
    answer_location e; simpl in Hin; intuition subst; discriminate.
  - apply current_weather_failure.
  - apply hourly_forecast_failure.
  - apply daily_forecast_failure.
Qed.

(** ** Forecast payloads *)

(** C9: under the weather client's contract, the [data] entry of a
    200 answer of the hourly route is the sequence the client
    returned, of 36 entries, and that of the daily route one of 10
    entries. *)
Theorem forecast_payload_lengths (e : env) (args : forecast_args) :
  honours_forecast_contract e ->
  ((result e (handle http_codes (GET_weather_forecast_hourly args))).2 = 200 ->
   exists state city s entries,
     e (getHourlyForecast state city) = (Some (Forecast entries), s) /\
     (result e (handle http_codes (GET_weather_forecast_hourly args))).1 !! "data"
       = Some (VWeather (Forecast entries)) /\
     length entries = 36%nat)
  /\
  ((result e (handle http_codes (GET_weather_forecast_daily args))).2 = 200 ->
   exists state city s entries,
     e (getDailyForecast state city) = (Some (Forecast entries), s) /\
     (result e (handle http_codes (GET_weather_forecast_daily args))).1 !! "data"
       = Some (VWeather (Forecast entries)) /\
     length entries = 10%nat).
Proof.
  intros [Hhourly Hdaily]. unfold result.
  split; intros Hcode; split_args args.
  all: try answer_location e; try discriminate.
  all: answer_weather e; try discriminate.
  all: match goal with
       | E : _ = (Some _, _) |- _ =>
           first [ destruct (Hhourly _ _ _ _ E) as (entries & -> & Hlen)
                 | destruct (Hdaily _ _ _ _ E) as (entries & -> & Hlen) ]
       end.
  all: do 4 eexists; split; [ eassumption | split; [ reflexivity | exact Hlen ] ].
Qed.

(** ** Independence from the services' status component *)

(** C10: the second component of the services' answers plays no part.
    Two environments whose answers have the same first components make
    every handler return the same pair and make the same calls; and
    what decides between success and failure is only whether a first
    component is [None]: the code is 200 exactly when no call of the
    request was answered with [None], and 503 otherwise. *)
Theorem service_status_is_ignored (e1 e2 : env) (req : request) :
  (forall c, first_component c (e1 c) = first_component c (e2 c)) ->
  run e1 (handle http_codes req) = run e2 (handle http_codes req)
  /\ ((result e1 (handle http_codes req)).2 = 200 <->
      Forall (fun c => returned_None e1 c = false)
        (trace e1 (handle http_codes req)))
  /\ ((result e1 (handle http_codes req)).2 = 503 <->
      Exists (fun c => returned_None e1 c = true)
        (trace e1 (handle http_codes req))).
Proof.
  intros Hsame. split; [ | clear e2 Hsame; split ].
  - destruct req as [ | args | args | args ]; simpl;
      [ | split_args args .. ];
      repeat same_answer e1 e2 Hsame; reflexivity.
  - unfold result, trace.
    run_cases e1 req; (split; [ intros Hcode | intros Hall ]);
      try discriminate; try reflexivity.
    all: try (repeat constructor; unfold returned_None;
              use_answer e1; reflexivity).
    all: exfalso;
      repeat match goal with
             | H : Forall _ (_ :: _) |- _ => apply Forall_cons_1 in H; destruct H
             end;
      unfold returned_None in *; clash e1.
  - unfold result, trace.
    run_cases e1 req; (split; [ intros Hcode | intros Hsome ]);
      try discriminate; try reflexivity.
    all: try solve [ find_failed e1 ].
    all: exfalso;
      repeat match goal with
             | H : Exists _ (_ :: _) |- _ => apply Exists_cons in H; destruct H
             | H : Exists _ [] |- _ => apply Exists_nil in H; destruct H
             end;
      unfold returned_None in *; try discriminate; clash e1.
Qed.

(** ** The calls of a request *)

(** X1: every request makes at most one call to the geolocation
    client, at most one to the weather client and at most one to
    [print], in this order. *)
Theorem calls_in_order (e : env) (req : request) :
  let t := trace e (handle http_codes req) in
  let g := filter (fun c => is_geolocation_call c = true) t in
  let w := filter (fun c => is_weather_call c = true) t in
  let p := filter (fun c => is_print_call c = true) t in
  t = (g ++ w ++ p)%list
  /\ (length g <= 1)%nat /\ (length w <= 1)%nat /\ (length p <= 1)%nat.
Proof.
  cbv zeta. unfold trace.
  run_cases e req; (split; [ reflexivity | simpl; lia ]).
Qed.

(** X2: a failure is printed, a success is not: when the code is 503
    the last call of the request is [print] on the very dictionary that
    is returned, and when the code is 200 nothing was printed. *)
Theorem failure_is_printed (e : env) (req : request) :
  let r := result e (handle http_codes req) in
  let t := trace e (handle http_codes req) in
  (r.2 = 503 /\ last t = Some (print r.1)) \/
  (r.2 = 200 /\ Forall (fun c => is_print_call c = false) t).
Proof.
  cbv zeta. unfold result, trace.
  run_cases e req;
    first [ left; split; reflexivity
          | right; split; [ reflexivity | repeat constructor ] ].
Qed.

(** X3: the [data] of a 200 answer is the result of the last call of
    the request, as the service returned it, and this call is the one
    the route serves: [getLocation] and its location for
    [/geolocator/], the route's function of [services.weather] and its
    weather result for the three weather routes. *)
Theorem success_payload_is_last_result (e : env) (req : request) :
  (result e (handle http_codes req)).2 = 200 ->
  exists c v,
    last (trace e (handle http_codes req)) = Some c /\
    serves_route req c = true /\
    payload e c = Some v /\
    (result e (handle http_codes req)).1 !! "data" = Some v.
Proof.
  unfold result, trace, payload.
  run_cases e req; intros Hcode; try discriminate;
    eexists; eexists; (split; [ reflexivity | ]);
    (split; [ reflexivity | ]);
    use_answer e; split; reflexivity.
Qed.

(** X4: a request is answered with 200 exactly when none of the calls
    it made came back with [None]. *)
Theorem success_iff_no_call_failed (e : env) (req : request) :
  (result e (handle http_codes req)).2 = 200 <->
  Forall (fun c => returned_None e c = false) (trace e (handle http_codes req)).
Proof.
  unfold result, trace.
  run_cases e req; (split; [ intros Hcode | intros Hall ]);
    try discriminate; try reflexivity.
  all: try (repeat constructor; unfold returned_None;
            use_answer e; reflexivity).
  all: exfalso;
    repeat match goal with
           | H : Forall _ (_ :: _) |- _ => apply Forall_cons_1 in H; destruct H
           end;
    unfold returned_None in *; clash e.
Qed.

(** ** Where the location comes from *)

(** X5: when [/weather/current] has to determine the location and the
    geolocation client resolves it, the one weather call is made on the
    latitude and longitude of the resolved location. *)
Theorem resolved_coordinates_are_used
    (e : env) (args : current_weather_args) (l : Location) :
  location_missing (GET_weather_current args) = true ->
  fst (e getLocation) = Some l ->
  filter (fun c => is_weather_call c = true)
    (trace e (handle http_codes (GET_weather_current args)))
  = [getCurrentWeather l.(latitude) l.(longitude)].
Proof.
  unfold trace. intros Hmiss Hl.
  split_args args; try discriminate;
    answer_location e; try discriminate;
    injection Hl as ->; answer_weather e; reflexivity.
Qed.

(** X6: with [state] and [city] both supplied, a forecast route never
    calls the geolocation client; its one weather call carries the
    state as supplied and the city with each space turned into an
    underscore, every other character kept in place, so the city sent
    holds no space. *)
Theorem supplied_forecast_arguments (e : env) (state city : string) :
  let args := {| arg_state := Some state; arg_city := Some city |} in
  let sent := map_string underscore_space city in
  let hourly := trace e (handle http_codes (GET_weather_forecast_hourly args)) in
  let daily := trace e (handle http_codes (GET_weather_forecast_daily args)) in
  has_space sent = false
  /\ filter (fun c => is_geolocation_call c = true) hourly = []
  /\ filter (fun c => is_weather_call c = true) hourly = [getHourlyForecast state sent]
  /\ filter (fun c => is_geolocation_call c = true) daily = []
  /\ filter (fun c => is_weather_call c = true) daily = [getDailyForecast state sent].
Proof.
  cbv zeta. unfold trace; simpl.
  rewrite replace_space_map.
  split; [ apply map_underscore_no_space | ].
  repeat split; answer_weather e; reflexivity.
Qed.

(** X7: a supplied city that holds no space reaches the weather client
    unchanged. *)
Theorem space_free_city_is_unchanged (e : env) (state city : string) :
  has_space city = false ->
  let args := {| arg_state := Some state; arg_city := Some city |} in
  trace e (handle http_codes (GET_weather_forecast_hourly args)) !! 0%nat
    = Some (getHourlyForecast state city)
  /\ trace e (handle http_codes (GET_weather_forecast_daily args)) !! 0%nat
    = Some (getDailyForecast state city).
Proof.
  intros Hcity. cbv zeta. unfold trace; simpl.
  rewrite (replace_space_id city Hcity).
  split; answer_weather e; reflexivity.
Qed.

(** X8: a weather route that has to determine the location and fails
    to runs exactly as [/geolocator/] does on the same failure: same
    returned pair, same calls. *)
Theorem fallback_failure_as_geolocator (e : env) (req : request) :
  location_missing req = true ->
  fst (e getLocation) = None ->
  run e (handle http_codes req) = run e (handle http_codes GET_geolocator).
Proof.
  intros Hmiss Hgeo.
  destruct req as [ | args | args | args ]; simpl in Hmiss; try discriminate;
    split_args args; try discriminate;
    answer_location e; try discriminate; reflexivity.
Qed.

(** ** The fields of the envelope *)

(** X9: the returned dictionary has no field besides those of its
    shape: [status] and [data] with code 200, [status], [type] and
    [error_message] with code 503. *)
Theorem envelope_fields (e : env) (req : request) :
  let r := result e (handle http_codes req) in
  (r.2 = 200 /\ dom r.1 = ({[ "status"; "data" ]} : gset string)) \/
  (r.2 = 503 /\ dom r.1 = ({[ "status"; "type"; "error_message" ]} : gset string)).
Proof.
  assert (Hok : forall v w : value,
             dom ({[ "status" := v; "data" := w ]} : gmap string value)
             = ({[ "status"; "data" ]} : gset string)).
  { intros v w. rewrite dom_insert_L, dom_singleton_L. reflexivity. }
  assert (Hko : forall v w x : value,
             dom ({[ "status" := v; "type" := w; "error_message" := x ]}
                  : gmap string value)
             = ({[ "status"; "type"; "error_message" ]} : gset string)).
  { intros v w x. rewrite !dom_insert_L, dom_singleton_L. reflexivity. }
  cbv zeta. unfold result.
  run_cases e req;
    first [ left; split; [ reflexivity | apply Hok ]
          | right; split; [ reflexivity | apply Hko ] ].
Qed.

(** X10: the message of a 503 answer names the call that failed.  It is
    the geolocation message when the geolocation call returned [None],
    in which case no weather call was made, and otherwise the message
    of the route, the weather call having returned [None]; the two
    messages differ on every weather route. *)
Theorem failure_message_names_failed_call (e : env) (req : request) :
  (result e (handle http_codes req)).2 = 503 ->
  let t := trace e (handle http_codes req) in
  let message := (result e (handle http_codes req)).1 !! "error_message" in
  (message = Some (VStr "Failed to make geolocation request")
   /\ returned_None e getLocation = true
   /\ t !! 0%nat = Some getLocation
   /\ Forall (fun c => is_weather_call c = false) t)
  \/
  (message = Some (VStr (weather_failure_message req))
   /\ weather_failure_message req <> "Failed to make geolocation request"
   /\ exists c, In c t /\ is_weather_call c = true /\ returned_None e c = true).
Proof.
  unfold result, trace, returned_None.
  run_cases e req; intros Hcode; try discriminate; cbv zeta.
  all: first
    [ left; split; [ reflexivity | ];
      split; [ try use_answer e; reflexivity | ];
      split; [ reflexivity | repeat constructor ]
    | right; split; [ reflexivity | ];
      split; [ discriminate | ];
      failed_call e; split; [ simpl; tauto | ];
      split; [ reflexivity | try use_answer e; reflexivity ] ].
Qed.

End Properties.


(** ** The properties on the concrete deployment *)

(** C1: the city normalisation is not applied to a resolved location.
    With no arguments and the geolocation client resolving to Los
    Angeles, both forecast handlers call the weather client with the
    city ["Los Angeles"], space included, whereas the same city supplied
    by the caller is forwarded as ["Los_Angeles"]. *)
Theorem resolved_city_keeps_its_spaces :
  let supplied := {| arg_state := Some "CA"; arg_city := Some "Los Angeles" |} in
  trace (all_up 200) (handle http_codes_spec (GET_weather_forecast_hourly no_forecast_args))
    = [getLocation; getHourlyForecast "CA" "Los Angeles"]
  /\ trace (all_up 200) (handle http_codes_spec (GET_weather_forecast_daily no_forecast_args))
    = [getLocation; getDailyForecast "CA" "Los Angeles"]
  /\ has_space "Los Angeles" = true
  /\ trace (all_up 200) (handle http_codes_spec (GET_weather_forecast_hourly supplied))
    = [getHourlyForecast "CA" "Los_Angeles"]
  /\ trace (all_up 200) (handle http_codes_spec (GET_weather_forecast_daily supplied))
    = [getDailyForecast "CA" "Los_Angeles"].
Proof. cbv zeta. repeat split. Qed.

Lemma geolocation_failure_short_circuits_witness :
  let req := GET_weather_forecast_daily no_forecast_args in
  location_missing req = true /\
  fst (geolocation_down getLocation) = None /\
  result geolocation_down (handle http_codes_spec req) =
    ({[ "status" := VInt 503; "type" := VStr "EXT_ERR";
        "error_message" := VStr "Failed to make geolocation request" ]}, 503) /\
  Forall (fun c => is_weather_call c = false)
    (trace geolocation_down (handle http_codes_spec req)).
Proof.
  cbv zeta. split; [ reflexivity | ]. split; [ reflexivity | ].
  apply (geolocation_failure_short_circuits http_codes_spec geolocation_down);
    reflexivity.
Defined.

Lemma partial_arguments_as_absent_witness :
  let req := GET_weather_current
               {| arg_lat := Some (3417 # 100)%Q; arg_lon := None |} in
  partial_location req = true /\
  run (all_up 200) (handle http_codes_spec req) =
    run (all_up 200) (handle http_codes_spec (without_location req)) /\
  exists rest,
    trace (all_up 200) (handle http_codes_spec req) = getLocation :: rest /\
    Forall (fun c => is_geolocation_call c = false) rest.
Proof.
  cbv zeta. split; [ reflexivity | ].
  apply (partial_arguments_as_absent http_codes_spec (all_up 200)).
  reflexivity.
Defined.


Lemma weather_failure_envelope_witness :
  let req := GET_weather_current
               {| arg_lat := Some (3417 # 100)%Q;
                  arg_lon := Some (- 11896 # 100)%Q |} in
  let c := getCurrentWeather (3417 # 100)%Q (- 11896 # 100)%Q in
  In c (trace weather_down (handle http_codes_spec req)) /\
  is_weather_call c = true /\
  returned_None weather_down c = true /\
  result weather_down (handle http_codes_spec req) =
    ({[ "status" := VInt 503; "type" := VStr "EXT_ERR";
        "error_message" := VStr "Failed to make weather request" ]}, 503).
Proof.
  cbv zeta. split; [ left; reflexivity | ].
  split; [ reflexivity | ]. split; [ reflexivity | ].
  apply (weather_failure_envelope http_codes_spec weather_down
           (GET_weather_current
              {| arg_lat := Some (3417 # 100)%Q;
                 arg_lon := Some (- 11896 # 100)%Q |})
           (getCurrentWeather (3417 # 100)%Q (- 11896 # 100)%Q));
    [ left; reflexivity | reflexivity | reflexivity ].
Defined.

Lemma all_up_honours_forecast_contract (status : Z) :
  honours_forecast_contract (all_up status).
Proof.
  split; intros state city w s H; injection H as <- _;
    eexists; split; reflexivity.
Qed.

Lemma forecast_payload_lengths_witness :
  honours_forecast_contract (all_up 200) /\
  ((result (all_up 200)
      (handle http_codes_spec (GET_weather_forecast_hourly no_forecast_args))).2 = 200 ->
   exists state city s entries,
     all_up 200 (getHourlyForecast state city) = (Some (Forecast entries), s) /\
     (result (all_up 200)
        (handle http_codes_spec (GET_weather_forecast_hourly no_forecast_args))).1
       !! "data" = Some (VWeather (Forecast entries)) /\
     length entries = 36%nat) /\
  ((result (all_up 200)
      (handle http_codes_spec (GET_weather_forecast_daily no_forecast_args))).2 = 200 ->
   exists state city s entries,
     all_up 200 (getDailyForecast state city) = (Some (Forecast entries), s) /\
     (result (all_up 200)
        (handle http_codes_spec (GET_weather_forecast_daily no_forecast_args))).1
       !! "data" = Some (VWeather (Forecast entries)) /\
     length entries = 10%nat).
Proof.
  split; [ apply all_up_honours_forecast_contract | ].
  apply (forecast_payload_lengths http_codes_spec (all_up 200) no_forecast_args).
  apply all_up_honours_forecast_contract.
Defined.

Lemma service_status_is_ignored_witness :
  let req := GET_weather_forecast_hourly no_forecast_args in
  (forall c, first_component c (all_up 200 c) = first_component c (all_up 503 c)) /\
  run (all_up 200) (handle http_codes_spec req)
  = run (all_up 503) (handle http_codes_spec req) /\
  ((result (all_up 200) (handle http_codes_spec req)).2 = 200 <->
   Forall (fun c => returned_None (all_up 200) c = false)
     (trace (all_up 200) (handle http_codes_spec req))) /\
  ((result (all_up 200) (handle http_codes_spec req)).2 = 503 <->
   Exists (fun c => returned_None (all_up 200) c = true)
     (trace (all_up 200) (handle http_codes_spec req))).
Proof.
  cbv zeta. split; [ intros c; destruct c; reflexivity | ].
  exact (service_status_is_ignored http_codes_spec (all_up 200) (all_up 503)
           (GET_weather_forecast_hourly no_forecast_args)
           (fun c => match c with
                     | getLocation => eq_refl
                     | getCurrentWeather _ _ => eq_refl
                     | getHourlyForecast _ _ => eq_refl
                     | getDailyForecast _ _ => eq_refl
                     | print _ => eq_refl
                     end)).
Defined.

Lemma success_payload_is_last_result_witness :
  let req := GET_weather_current {| arg_lat := None; arg_lon := None |} in
  (result (all_up 200) (handle http_codes_spec req)).2 = 200 /\
  exists c v,
    last (trace (all_up 200) (handle http_codes_spec req)) = Some c /\
    serves_route req c = true /\
    payload (all_up 200) c = Some v /\
    (result (all_up 200) (handle http_codes_spec req)).1 !! "data" = Some v.
Proof.
  cbv zeta. split; [ reflexivity | ].
  exact (success_payload_is_last_result http_codes_spec (all_up 200)
           (GET_weather_current {| arg_lat := None; arg_lon := None |})
           eq_refl).
Defined.

Lemma resolved_coordinates_are_used_witness :
  let args := {| arg_lat := None; arg_lon := Some (1 # 2)%Q |} in
  location_missing (GET_weather_current args) = true /\
  fst (all_up 200 getLocation) = Some los_angeles /\
  filter (fun c => is_weather_call c = true)
    (trace (all_up 200) (handle http_codes_spec (GET_weather_current args)))
  = [getCurrentWeather (3417 # 100)%Q (- 11896 # 100)%Q].
Proof.
  cbv zeta. split; [ reflexivity | ]. split; [ reflexivity | ].
  apply (resolved_coordinates_are_used http_codes_spec (all_up 200)
           {| arg_lat := None; arg_lon := Some (1 # 2)%Q |} los_angeles);
    reflexivity.
Defined.

Lemma space_free_city_is_unchanged_witness :
  let args := {| arg_state := Some "CA"; arg_city := Some "Ventura" |} in
  has_space "Ventura" = false /\
  trace weather_down (handle http_codes_spec (GET_weather_forecast_hourly args)) !! 0%nat
    = Some (getHourlyForecast "CA" "Ventura") /\
  trace weather_down (handle http_codes_spec (GET_weather_forecast_daily args)) !! 0%nat
    = Some (getDailyForecast "CA" "Ventura").
Proof.
  cbv zeta. split; [ reflexivity | ].
  apply (space_free_city_is_unchanged http_codes_spec weather_down "CA" "Ventura").
  reflexivity.
Defined.

Lemma fallback_failure_as_geolocator_witness :
  let req := GET_weather_forecast_hourly
               {| arg_state := Some "CA"; arg_city := None |} in
  location_missing req = true /\
  fst (geolocation_down getLocation) = None /\
  run geolocation_down (handle http_codes_spec req)
  = run geolocation_down (handle http_codes_spec GET_geolocator).
Proof.
  cbv zeta. split; [ reflexivity | ]. split; [ reflexivity | ].
  apply (fallback_failure_as_geolocator http_codes_spec geolocation_down);
    reflexivity.
Defined.

Lemma failure_message_names_failed_call_witness :
  let req := GET_weather_forecast_daily no_forecast_args in
  let t := trace weather_down (handle http_codes_spec req) in
  let message :=
    (result weather_down (handle http_codes_spec req)).1 !! "error_message" in
  (result weather_down (handle http_codes_spec req)).2 = 503 /\
  ((message = Some (VStr "Failed to make geolocation request")
    /\ returned_None weather_down getLocation = true
    /\ t !! 0%nat = Some getLocation
    /\ Forall (fun c => is_weather_call c = false) t)
   \/
   (message = Some (VStr (weather_failure_message req))
    /\ weather_failure_message req <> "Failed to make geolocation request"
    /\ exists c, In c t /\ is_weather_call c = true
                 /\ returned_None weather_down c = true)).
Proof.
  cbv zeta. split; [ reflexivity | ].
  apply (failure_message_names_failed_call http_codes_spec weather_down
           (GET_weather_forecast_daily no_forecast_args)).
  reflexivity.
Defined.
